(** * Nearest-pair search of [demo.py]

    A shallow embedding of [calculate_similarity] and
    [find_most_similar_images] from [demo.py], and the properties of the
    nearest-pair search stated in the specification.

    Numbers.  Python floats are idealised as real numbers ([R]) extended with
    the one infinite value the code writes, [float('inf')].  Rounding,
    overflow and NaN are outside this model.

    Library calls.  [scipy.spatial.distance.euclidean] is not code of this
    repository; it is modelled by what it does on one-dimensional arrays:
    the difference [u - v] is taken by numpy under its broadcasting rule and
    the 2-norm of the difference is returned. *)

From Stdlib Require Import Ascii String.
From Stdlib Require Import List Arith Lia Bool Reals Lra Sorting.Sorted.
From Stdlib Require Import Sorting.Permutation FinFun ZArith.
Import ListNotations.

Open Scope R_scope.

(** ** Values *)

(** A feature vector: a one-dimensional array of numbers. *)
Definition vec := list R.

(** A two-dimensional array (a grayscale image, a rendered HOG image). *)
Definition img := list (list R).

(** A float of the idealised arithmetic: a real number or [float('inf')]. *)
Inductive xreal : Type :=
| Fin (x : R)
| Inf.

(** The comparison [a < b] on floats. *)
Definition xlt (a b : xreal) : bool :=
  match a, b with
  | Fin x, Fin y => if Rlt_dec x y then true else false
  | Fin _, Inf => true
  | Inf, _ => false
  end.

(** Exceptions that the modelled code can raise. *)
Inductive exn : Type :=
| ValueError   (* numpy: operands could not be broadcast together *)
| IndexError.  (* list index out of range *)

Inductive result (A : Type) : Type :=
| Ok (a : A)
| Raise (e : exn).
Arguments Ok {A} a.
Arguments Raise {A} e.

(** ** numpy and scipy on one-dimensional arrays *)

Fixpoint zip_with (f : R -> R -> R) (u v : vec) : vec :=
  match u, v with
  | a :: u', b :: v' => f a b :: zip_with f u' v'
  | _, _ => []
  end.

(** [u - v] on arrays of shapes [(n,)] and [(m,)]: elementwise when [n = m];
    an array of length one is stretched to the length of the other; any other
    combination of lengths is an error. *)
Definition subtract (u v : vec) : result vec :=
  if length u =? length v then Ok (zip_with Rminus u v)
  else if length v =? 1 then Ok (map (fun a => a - hd 0 v) u)
  else if length u =? 1 then Ok (map (fun b => hd 0 u - b) v)
  else Raise ValueError.

(** [x.dot(y)] *)
Fixpoint dot (x y : vec) : R :=
  match x, y with
  | a :: x', b :: y' => a * b + dot x' y'
  | _, _ => 0
  end.

(** [numpy.linalg.norm(x, ord=2)] of a one-dimensional array *)
Definition norm (x : vec) : R := sqrt (dot x x).

(** [scipy.spatial.distance.euclidean(u, v)] *)
Definition euclidean (u v : vec) : result xreal :=
  match subtract u v with
  | Ok u_v => Ok (Fin (norm u_v))
  | Raise e => Raise e
  end.

(** ** [calculate_similarity] (demo.py, lines 45-55) *)

Definition calculate_similarity (hog_features1 hog_features2 : vec)
  : result xreal :=
  euclidean hog_features1 hog_features2.

(** The distance as the specification writes it:
    [sqrt(sum((a_k - b_k)^2))] over the [D] coordinates. *)
Fixpoint big_sum (n : nat) (f : nat -> R) : R :=
  match n with
  | O => 0
  | S k => big_sum k f + f k
  end.


(** ** State and control flow of [find_most_similar_images] *)

(** One row [[image, hog_features, hog_image, path]] of [hog_data]. *)
Record entry : Type := mkEntry {
  image : img;
  hog_features : vec;   (* row[1] *)
  hog_image : img;
  path : string
}.

(** The console and the variables of the function that are assigned more than
    once or handed back to the caller. *)
Record state : Type := mkState {
  stdout : list string;
  hog_data : list entry;
  min_similarity : xreal;
  most_similar_pair : option (nat * nat)
}.

(** Statements: a state transformer that may raise. *)
Definition M (A : Type) : Type := state -> result (A * state).

Definition ret {A : Type} (a : A) : M A := fun s => Ok (a, s).

Definition bind {A B : Type} (m : M A) (k : A -> M B) : M B :=
  fun s =>
    match m s with
    | Ok (a, s') => k a s'
    | Raise e => Raise e
    end.

Notation "x <- m ;; k" := (bind m (fun x => k))
  (at level 61, m at next level, right associativity).
Notation "m ;;; k" := (bind m (fun _ => k))
  (at level 61, right associativity).

Definition lift {A : Type} (r : result A) : M A :=
  fun s =>
    match r with
    | Ok a => Ok (a, s)
    | Raise e => Raise e
    end.

Definition gets {A : Type} (f : state -> A) : M A := fun s => Ok (f s, s).

Definition print (msg : string) : M unit :=
  fun s =>
    Ok (tt, mkState (stdout s ++ [msg]) (hog_data s)
                    (min_similarity s) (most_similar_pair s)).

Definition set_hog_data (l : list entry) : M unit :=
  fun s => Ok (tt, mkState (stdout s) l (min_similarity s) (most_similar_pair s)).

Definition set_min_similarity (x : xreal) : M unit :=
  fun s => Ok (tt, mkState (stdout s) (hog_data s) x (most_similar_pair s)).

Definition set_most_similar_pair (p : option (nat * nat)) : M unit :=
  fun s => Ok (tt, mkState (stdout s) (hog_data s) (min_similarity s) p).

(** [for x in l: body(x)]; an exception leaves the loop. *)
Fixpoint for_each {A : Type} (l : list A) (body : A -> M unit) : M unit :=
  match l with
  | [] => ret tt
  | x :: l' => body x ;;; for_each l' body
  end.

(** [range(n)] *)
Definition range (n : nat) : list nat := seq 0 n.

(** [itertools.combinations(pool, 2)]: the pairs of elements at positions
    [p < q] of the pool, in the order of the positions. *)
Fixpoint combinations2 {A : Type} (pool : list A) : list (A * A) :=
  match pool with
  | [] => []
  | x :: rest => map (pair x) rest ++ combinations2 rest
  end.

(** [hog_data[i][1]] *)
Definition features_at (i : nat) : M vec :=
  fun s =>
    match nth_error (hog_data s) i with
    | Some row => Ok (hog_features row, s)
    | None => Raise IndexError
    end.

(** Lines 92-95, the body of the loop over the pairs, for a distance
    function [sim]. *)
Definition compare_pair (sim : vec -> vec -> result xreal) (ij : nat * nat)
  : M unit :=
  let (i, j) := ij in
  f1 <- features_at i ;;
  f2 <- features_at j ;;
  similarity <- lift (sim f1 f2) ;;
  least <- gets min_similarity ;;
  if xlt similarity least then
    set_min_similarity similarity ;;;
    set_most_similar_pair (Some (i, j))
  else ret tt.

(** What the function returns: [None], or the tuple
    [(min_similarity, most_similar_pair, hog_data)]. *)
Definition retval : Type := option (xreal * option (nat * nat) * list entry).

(** Lines 83-98: the search over the rows collected in [hog_data]. *)
Definition search_with (sim : vec -> vec -> result xreal) : M retval :=
  num_images <- gets (fun s => length (hog_data s)) ;;
  if num_images <? 2 then
    print "Not enough images to compare similarity." ;;;
    ret None
  else
    set_min_similarity Inf ;;;
    set_most_similar_pair None ;;;
    for_each (combinations2 (range num_images)) (compare_pair sim) ;;;
    s <- gets (fun s => s) ;;
    ret (Some (min_similarity s, most_similar_pair s, hog_data s)).

Definition search : M retval := search_with calculate_similarity.

(** What a run reads from the outside: the directory and the files in it. *)
Record filesystem : Type := mkFilesystem {
  listdir : string -> list string;        (* os.listdir *)
  isfile : string -> bool;                (* os.path.isfile *)
  (** [io.imread]; [None] stands for [FileNotFoundError]. *)
  imread : string -> option (list img)
}.

Section Environment.

Variable fs : filesystem.

(** Library functions, outside this repository. *)
Variable path_join : string -> string -> string. (* os.path.join *)
(** Lines 25-29: the alpha channel dropped, then [color.rgb2gray]. *)
Variable to_gray : list img -> result img.
Variable hog : img -> vec * img.                 (* hog(image, visualize=True) *)
Variable rescale_intensity : img -> img.

(** Lines 10-30 *)
Definition load_and_preprocess_image (image_path : string) : M (option img) :=
  match imread fs image_path with
  | None =>
      print ("Error: Image file not found at " ++ image_path) ;;;
      ret None
  | Some image =>
      gray_image <- lift (to_gray image) ;;
      ret (Some gray_image)
  end.

(** Lines 32-43 *)
Definition compute_hog_features (image : img) : vec * img :=
  let (hog_features, hog_image) := hog image in
  (hog_features, rescale_intensity hog_image).

(** Line 69 *)
Definition list_images (image_dir : string) : list string :=
  map (path_join image_dir)
      (filter (fun f => isfile fs (path_join image_dir f)) (listdir fs image_dir)).

(** Lines 76-81, the body of the loop over the paths. *)
Definition collect (path : string) : M unit :=
  image <- load_and_preprocess_image path ;;
  match image with
  | None => ret tt
  | Some image =>
      let (hog_features, hog_image) := compute_hog_features image in
      rows <- gets hog_data ;;
      set_hog_data (rows ++ [mkEntry image hog_features hog_image path])
  end.

(** Lines 57-98 *)
Definition find_most_similar_images (image_dir : string) : M retval :=
  let image_paths := list_images image_dir in
  match image_paths with
  | [] =>
      print ("No images found in directory: " ++ image_dir) ;;;
      ret None
  | _ :: _ =>
      set_hog_data [] ;;;
      for_each image_paths collect ;;;
      search
  end.

End Environment.

(** ** Vocabulary of the properties *)

(** The feature vector of item [i] of a collection. *)
Definition features (items : list entry) (i : nat) : vec :=
  nth i (map hog_features items) [].

(** All feature vectors of the collection have one length. *)
Definition same_dimension (items : list entry) : bool :=
  match items with
  | [] => true
  | row :: rest =>
      forallb (fun row' => length (hog_features row') =? length (hog_features row))
              rest
  end.

(** The real distance between items [i] and [j]. *)
Definition pair_distance (items : list entry) (ij : nat * nat) : R :=
  norm (zip_with Rminus (features items (fst ij)) (features items (snd ij))).



(** The result of a statement without the final state. *)
Definition returned {A : Type} (r : result (A * state)) : result A :=
  match r with
  | Ok (a, _) => Ok a
  | Raise e => Raise e
  end.

(** The loop variables after the pairs [ps] are visited in turn, when the
    distance of pair [p] is [d p]. *)
Definition visit (d : nat * nat -> R) (acc : xreal * option (nat * nat))
  (p : nat * nat) : xreal * option (nat * nat) :=
  if xlt (Fin (d p)) (fst acc) then (Fin (d p), Some p) else acc.

Definition scan (d : nat * nat -> R) (ps : list (nat * nat))
  (acc : xreal * option (nat * nat)) : xreal * option (nat * nat) :=
  fold_left (visit d) ps acc.

(** State [s] with the two loop variables replaced. *)
Definition with_vars (s : state) (acc : xreal * option (nat * nat)) : state :=
  mkState (stdout s) (hog_data s) (fst acc) (snd acc).

(** State [s] with the console replaced. *)
Definition on_console (out : list string) (s : state) : state :=
  mkState out (hog_data s) (min_similarity s) (most_similar_pair s).

(** An outcome with its final state changed by [f]. *)
Definition map_state {A : Type} (f : state -> state) (r : result (A * state))
  : result (A * state) :=
  match r with
  | Ok (a, s) => Ok (a, f s)
  | Raise e => Raise e
  end.

(** An item named [name] with feature vector [v]; the images play no part in
    the search. *)
Definition item (name : string) (v : vec) : entry := mkEntry [] v [] name.

(** The state in which the search starts on the collection [items]. *)
Definition start (items : list entry) : state := mkState [] items Inf None.

(** The collection of the worked example: A, B and C. *)
Definition example_items : list entry :=
  [item "A" [0; 0]; item "B" [3; 4]; item "C" [1; 1]].

(** Two disks that hold the same two files in one directory and differ
    elsewhere, and stand-ins for the library functions. *)
Definition disk_one : filesystem :=
  mkFilesystem (fun _ => ["a.png"; "b.png"]%string) (fun _ => true)
               (fun _ => Some []).

Definition disk_two : filesystem :=
  mkFilesystem (fun _ => ["a.png"; "b.png"]%string) (fun _ => true)
               (fun p => if String.eqb p "elsewhere" then None else Some []).


(** A disk that lists two files and holds only the first. *)
Definition disk_half : filesystem :=
  mkFilesystem (fun _ => ["a.png"; "b.png"]%string) (fun _ => true)
               (fun p => if String.eqb p "cropped_images/a.png" then Some [] else None).


Definition join_paths (d f : string) : string := (d ++ "/" ++ f)%string.

Definition flat_gray (_ : list img) : result img := Ok [].

Definition unit_hog (_ : img) : vec * img := ([1; 2], []).

(** Two lengths that numpy cannot broadcast together. *)
Definition incompatible (u v : vec) : Prop :=
  length u <> length v /\ length u <> 1%nat /\ length v <> 1%nat.

(** ** The rows that a list of paths yields *)

Section Rows.

Variable fs : filesystem.
Variable to_gray : list img -> result img.
Variable hog : img -> vec * img.
Variable rescale_intensity : img -> img.







End Rows.

(** ** [visualize_results] and [main] (demo.py, lines 101-151) *)

(** The calls made on matplotlib, in the order they are made; an axis is
    named by its row and column in the grid. *)
Inductive plot_call : Type :=
| Subplots (nrows ncols : nat) (figsize : nat * nat)
| Imshow (ax : nat * nat) (picture : img) (cmap : string)
| AxisOff (ax : nat * nat)
| SetTitle (ax : nat * nat) (title : string)
| Hist (ax : nat * nat) (data : vec) (bins : nat) (color : string)
| TightLayout
| Show.

(** Lines 114-142: the figure for the two rows. *)
Definition draw_pair (row1 row2 : entry) : list plot_call :=
  [ Subplots 2 3 (12, 8)%nat;
    Imshow (0, 0)%nat (image row1) "gray";
    AxisOff (0, 0)%nat;
    SetTitle (0, 0)%nat "Image 1";
    Imshow (0, 1)%nat (hog_image row1) "hot";
    AxisOff (0, 1)%nat;
    SetTitle (0, 1)%nat "HOG Features Image 1";
    Hist (0, 2)%nat (hog_features row1) 50 "gray";
    SetTitle (0, 2)%nat "HOG Features Histogram Image 1";
    Imshow (1, 0)%nat (image row2) "gray";
    AxisOff (1, 0)%nat;
    SetTitle (1, 0)%nat "Image 2";
    Imshow (1, 1)%nat (hog_image row2) "hot";
    AxisOff (1, 1)%nat;
    SetTitle (1, 1)%nat "HOG Features Image 2";
    Hist (1, 2)%nat (hog_features row2) 50 "gray";
    SetTitle (1, 2)%nat "HOG Features Histogram Image 2";
    TightLayout;
    Show ].

Section Display.

(** [str] of a float, as the f-string of line 112 writes it. *)
Variable format_float : xreal -> string.

Definition similarity_line (least : xreal) (path1 path2 : string) : string :=
  ("Similarity (Euclidean Distance): " ++ format_float least
   ++ " between " ++ path1 ++ " and " ++ path2)%string.

(** Lines 101-142.  The console is passed through; the value is the list of
    matplotlib calls made. *)
Definition visualize_results (least : xreal) (pair_found : option (nat * nat))
  (rows : option (list entry)) (out : list string)
  : result (list plot_call * list string) :=
  match pair_found, rows with
  | Some (i, j), Some rows =>
      match nth_error rows i with
      | None => Raise IndexError
      | Some row1 =>
          match nth_error rows j with
          | None => Raise IndexError
          | Some row2 =>
              Ok (draw_pair row1 row2,
                  out ++ [similarity_line least (path row1) (path row2)])
          end
      end
  | _, _ => Ok ([], out ++ ["No similar images to visualize."%string])
  end.

Variable fs : filesystem.
Variable path_join : string -> string -> string.
Variable to_gray : list img -> result img.
Variable hog : img -> vec * img.
Variable rescale_intensity : img -> img.

(** Lines 146-151.  [if results:] holds for a tuple and fails for [None]. *)
Definition main (image_dir : string) (out : list string)
  : result (list plot_call * list string) :=
  match find_most_similar_images fs path_join to_gray hog rescale_intensity
                                 image_dir (mkState out [] Inf None) with
  | Raise e => Raise e
  | Ok (None, s) => Ok ([], stdout s)
  | Ok (Some (least, pair_found, rows), s) =>
      visualize_results least pair_found (Some rows) (stdout s)
  end.

End Display.

(** * The other scripts *)

(** ** Strings *)

(** [s.endswith(suffix)]: some tail of [s] is [suffix]. *)
Fixpoint ends_with (suffix s : string) : bool :=
  if String.eqb suffix s then true
  else match s with
       | EmptyString => false
       | String _ s' => ends_with suffix s'
       end.

(** [s.split(sep)] for a separator of one character: the pieces between the
    separators, empty pieces included; there is always at least one piece. *)
Fixpoint split_on (sep : ascii) (s : string) : list string :=
  match s with
  | EmptyString => [EmptyString]
  | String c s' =>
      if Ascii.eqb c sep then EmptyString :: split_on sep s'
      else match split_on sep s' with
           | piece :: pieces => String c piece :: pieces
           | [] => [String c EmptyString]
           end
  end.

(** [c in s] for a character [c]. *)
Fixpoint has_char (c : ascii) (s : string) : bool :=
  match s with
  | EmptyString => false
  | String a s' => Ascii.eqb a c || has_char c s'
  end.

(** The outcome of a library call that may raise: the value, or the text of
    the exception. *)
Inductive outcome (A : Type) : Type :=
| Done (a : A)
| Failed (msg : string).
Arguments Done {A} a.
Arguments Failed {A} msg.

(** ** [crop_images_in_folder] (detect_axis.py, lines 4-28) *)

(** Line 17: the extensions of the files that are cropped. *)
Definition image_extensions : list string :=
  [".png"; ".jpg"; ".jpeg"; ".gif"; ".bmp"]%string.

Definition is_image_name (filename : string) : bool :=
  existsb (fun ext => ends_with ext filename) image_extensions.

(** Line 4: the default crop box [(left, upper, right, lower)]. *)
Definition default_crop_box : Z * Z * Z * Z := (246, 90, 820, 400)%Z.

Definition cropped_line (filename : string) : string :=
  ("Cropped and saved: " ++ filename)%string.

Definition crop_error_line (filename msg : string) : string :=
  ("Error processing " ++ filename ++ ": " ++ msg)%string.

Section CropScript.

(** The disk and the pictures of PIL, with the calls made on them. *)
Variable world : Type.
Variable picture : Type.
Variable path_exists : world -> string -> bool.                (* os.path.exists *)
Variable makedirs : string -> world -> outcome world.          (* os.makedirs *)
Variable list_folder : world -> string -> outcome (list string). (* os.listdir *)
Variable join : string -> string -> string.                    (* os.path.join *)
Variable image_open : world -> string -> outcome picture.      (* Image.open *)
Variable crop : picture -> Z * Z * Z * Z -> outcome picture.   (* img.crop *)
(** [cropped_img.save]: the disk after the call, and whether it raised. *)
Variable save : picture -> string -> world -> outcome unit * world.

(** Lines 17-28, the body of the loop, on the disk and the console. *)
Definition crop_one (input_folder output_folder : string)
  (crop_box : Z * Z * Z * Z) (st : world * list string) (filename : string)
  : world * list string :=
  let (w, out) := st in
  if negb (is_image_name filename) then (w, out)
  else
    let filepath := join input_folder filename in
    match image_open w filepath with
    | Failed e => (w, out ++ [crop_error_line filename e])
    | Done picture_in =>
        match crop picture_in crop_box with
        | Failed e => (w, out ++ [crop_error_line filename e])
        | Done cropped_img =>
            let output_filepath := join output_folder filename in
            match save cropped_img output_filepath w with
            | (Failed e, w') => (w', out ++ [crop_error_line filename e])
            | (Done _, w') => (w', out ++ [cropped_line filename])
            end
        end
    end.

(** Lines 4-28 *)
Definition crop_images_in_folder (input_folder output_folder : string)
  (crop_box : Z * Z * Z * Z) (st : world * list string)
  : outcome (world * list string) :=
  let (w, out) := st in
  match (if path_exists w output_folder then Done w
         else makedirs output_folder w) with
  | Failed e => Failed e
  | Done w1 =>
      match list_folder w1 input_folder with
      | Failed e => Failed e
      | Done names =>
          Done (fold_left (crop_one input_folder output_folder crop_box)
                          names (w1, out))
      end
  end.

(** Lines 31-33: the call made when the script runs. *)
Definition detect_axis_script (st : world * list string)
  : outcome (world * list string) :=
  crop_images_in_folder "image" "cropped_images" default_crop_box st.

(** A console line about [filename]: cropped, or an error. *)
Definition line_about (filename line : string) : Prop :=
  line = cropped_line filename \/ exists e, line = crop_error_line filename e.

End CropScript.

(** ** [scrap_ld_snapshot.py] *)

(** Lines 74-75: the name of the screenshot for [link]. *)
Definition variant_id (link : string) : string :=
  last (split_on "/" link) EmptyString.

Definition screenshot_name (link : string) : string :=
  (variant_id link ++ ".png")%string.

(** The exception classes that lines 26-30 tell apart. *)
Inductive exception_class : Type :=
| KeyError
| FileNotFoundError
| OtherException.

(** What [open] and [plistlib.load] give for a file: the dictionary, or an
    exception with its class and its text. *)
Inductive plist_load : Type :=
| Plist (entries : list (string * string))
| Raises (cls : exception_class) (msg : string).

(** [plist[key]] on the entries of a dictionary. *)
Fixpoint lookup (key : string) (entries : list (string * string))
  : option string :=
  match entries with
  | [] => None
  | (k, v) :: rest => if String.eqb k key then Some v else lookup key rest
  end.

(** The value of [plistlib.InvalidPlistException] in the tuple of line 30:
    the module [plistlib] of the standard library defines
    [InvalidFileException] and no [InvalidPlistException], so the attribute
    access raises [AttributeError]. *)
Definition plistlib_attribute_error : string :=
  "module 'plistlib' has no attribute 'InvalidPlistException'".

Definition invalid_plist_exception : outcome exception_class :=
  Failed plistlib_attribute_error.

(** An exception of class [cls] is an instance of one of [classes]. *)
Definition caught_by (classes : list exception_class) (cls : exception_class)
  : bool :=
  existsb (fun c =>
             match c, cls with
             | KeyError, KeyError => true
             | FileNotFoundError, FileNotFoundError => true
             | _, _ => false
             end) classes.

Definition webloc_error_line (webloc_file msg : string) : string :=
  ("Error processing " ++ webloc_file ++ ": " ++ msg)%string.

(** The truth value of [link] in [if link:], for [None] or a string. *)
Definition truthy (link : option string) : bool :=
  match link with
  | Some (String _ _) => true
  | _ => false
  end.

Section Weblocs.

Variable load_plist : string -> plist_load.          (* open and plistlib.load *)
Variable folder_names : string -> list string.       (* os.listdir *)
Variable join : string -> string -> string.          (* os.path.join *)

(** Lines 30-32: an exception of class [cls] with text [msg] reaches the
    [except] clause; the tuple of classes is evaluated first. *)
Definition handle_webloc_error (webloc_file : string) (cls : exception_class)
  (msg : string) (out : list string) : outcome (option string * list string) :=
  match invalid_plist_exception with
  | Failed e => Failed e
  | Done invalid =>
      if caught_by [invalid; KeyError; FileNotFoundError] cls then
        Done (None, out ++ [webloc_error_line webloc_file msg])
      else Failed msg
  end.

(** Lines 17-32, on the console. *)
Definition extract_link_from_webloc (webloc_file : string) (out : list string)
  : outcome (option string * list string) :=
  match load_plist webloc_file with
  | Plist entries =>
      match lookup "URL" entries with
      | Some url => Done (Some url, out)
      | None => handle_webloc_error webloc_file KeyError "'URL'" out
      end
  | Raises cls msg => handle_webloc_error webloc_file cls msg out
  end.

(** Lines 46-50, the body of the loop, on the links and the console. *)
Definition add_link (folder_path : string)
  (st : outcome (list string * list string)) (filename : string)
  : outcome (list string * list string) :=
  match st with
  | Failed e => Failed e
  | Done (links, out) =>
      if ends_with ".webloc" filename then
        let file_path := join folder_path filename in
        match extract_link_from_webloc file_path out with
        | Failed e => Failed e
        | Done (link, out') =>
            match link with
            | Some url => if truthy link then Done (links ++ [url], out')
                          else Done (links, out')
            | None => Done (links, out')
            end
        end
      else Done (links, out)
  end.

(** Lines 35-51 *)
Definition extract_links_from_webloc_folder (folder_path : string)
  (out : list string) : outcome (list string * list string) :=
  fold_left (add_link folder_path) (folder_names folder_path) (Done ([], out)).

(** The link that a folder entry contributes when its file loads. *)
Definition link_of (folder_path filename : string) : list string :=
  if ends_with ".webloc" filename then
    match load_plist (join folder_path filename) with
    | Plist entries =>
        match lookup "URL" entries with
        | Some (String c url) => [String c url]
        | _ => []
        end
    | Raises _ _ => []
    end
  else [].

(** The file of a folder entry loads and has the key [URL]. *)
Definition loads (folder_path filename : string) : Prop :=
  exists entries url,
    load_plist (join folder_path filename) = Plist entries /\
    lookup "URL" entries = Some url.

End Weblocs.

(** A folder with one [.webloc] file and one other file. *)
Definition example_plists (file_path : string) : plist_load :=
  if String.eqb file_path "link/autism/a.webloc"
  then Plist [("URL", "https://example.org/variant/rs1")]%string
  else Raises FileNotFoundError "No such file or directory".

Definition example_folder (_ : string) : list string :=
  ["a.webloc"; "notes.txt"]%string.

(** * Properties *)

(** ** The distance *)

Lemma big_sum_ext (n : nat) (f g : nat -> R) :
  (forall k, (k < n)%nat -> f k = g k) -> big_sum n f = big_sum n g.
Proof.
  induction n as [|n IH]; intros E; simpl; [reflexivity|].
  rewrite IH by (intros k Hk; apply E; lia).
  rewrite (E n) by lia. reflexivity.
Qed.



Lemma subtract_same_length (u v : vec) :
  length u = length v -> subtract u v = Ok (zip_with Rminus u v).
Proof.
  intros L. unfold subtract. rewrite L, Nat.eqb_refl. reflexivity.
Qed.

Lemma calculate_similarity_same_length (u v : vec) :
  length u = length v ->
  calculate_similarity u v = Ok (Fin (norm (zip_with Rminus u v))).
Proof.
  intros L. unfold calculate_similarity, euclidean.
  rewrite subtract_same_length by exact L. reflexivity.
Qed.



(** Squares do not see the sign of a difference. *)
Lemma dot_zip_swap (u : vec) :
  forall v : vec,
  dot (zip_with Rminus u v) (zip_with Rminus u v)
  = dot (zip_with Rminus v u) (zip_with Rminus v u).
Proof.
  induction u as [|x u IH]; intros [|y v]; simpl; try reflexivity.
  rewrite (IH v). ring.
Qed.

Lemma dot_map_swap (c : R) (u : vec) :
  dot (map (fun a => a - c) u) (map (fun a => a - c) u)
  = dot (map (fun b => c - b) u) (map (fun b => c - b) u).
Proof.
  induction u as [|x u IH]; simpl; [reflexivity|]. rewrite IH. ring.
Qed.

Lemma calculate_similarity_sym (u v : vec) :
  calculate_similarity u v = calculate_similarity v u.
Proof.
  unfold calculate_similarity, euclidean, subtract.
  rewrite (Nat.eqb_sym (length v) (length u)).
  destruct (length u =? length v) eqn:E.
  - unfold norm. rewrite dot_zip_swap. reflexivity.
  - destruct (length v =? 1) eqn:Ev, (length u =? 1) eqn:Eu.
    + apply Nat.eqb_eq in Ev, Eu. apply Nat.eqb_neq in E. lia.
    + unfold norm. rewrite dot_map_swap. reflexivity.
    + unfold norm. rewrite dot_map_swap. reflexivity.
    + reflexivity.
Qed.

(** ** The enumeration of the pairs *)

Lemma in_combinations2_seq (n : nat) :
  forall a i j,
  In (i, j) (combinations2 (seq a n)) <-> (a <= i /\ i < j /\ j < a + n)%nat.
Proof.
  induction n as [|n IH]; intros a i j; simpl.
  - split; [tauto | lia].
  - rewrite in_app_iff, in_map_iff, IH. split.
    + intros [[y [E Hy]] | H].
      * inversion E; subst. apply in_seq in Hy. lia.
      * lia.
    + intros (H1 & H2 & H3).
      destruct (Nat.eq_dec a i) as [->|Hn].
      * left. exists j. split; [reflexivity|]. apply in_seq. lia.
      * right. lia.
Qed.

Lemma in_combinations2_range (n i j : nat) :
  In (i, j) (combinations2 (range n)) <-> (i < j /\ j < n)%nat.
Proof.
  unfold range. rewrite in_combinations2_seq. lia.
Qed.









(** ** The loop over the pairs *)

Lemma features_lookup (items : list entry) (i : nat) :
  (i < length items)%nat ->
  exists row, nth_error items i = Some row /\ hog_features row = features items i.
Proof.
  revert i. induction items as [|r items IH]; intros i L; simpl in L; [lia|].
  destruct i as [|i].
  - exists r. split; reflexivity.
  - destruct (IH i) as [row [E1 E2]]; [lia|].
    exists row. split; assumption.
Qed.

Lemma features_at_ok (s : state) (i : nat) :
  (i < length (hog_data s))%nat ->
  features_at i s = Ok (features (hog_data s) i, s).
Proof.
  intros L. destruct (features_lookup _ _ L) as [row [E1 E2]].
  unfold features_at. rewrite E1, E2. reflexivity.
Qed.

Lemma features_at_out (s : state) (i : nat) :
  (length (hog_data s) <= i)%nat -> features_at i s = Raise IndexError.
Proof.
  intros L. unfold features_at.
  apply nth_error_None in L. rewrite L. reflexivity.
Qed.

Lemma with_vars_same (s : state) :
  with_vars s (min_similarity s, most_similar_pair s) = s.
Proof. destruct s; reflexivity. Qed.

Lemma compare_pair_step (sim : vec -> vec -> result xreal)
  (d : nat * nat -> R) (s : state) (i j : nat) :
  (i < length (hog_data s))%nat -> (j < length (hog_data s))%nat ->
  sim (features (hog_data s) i) (features (hog_data s) j) = Ok (Fin (d (i, j))) ->
  compare_pair sim (i, j) s
  = Ok (tt, with_vars s (visit d (min_similarity s, most_similar_pair s) (i, j))).
Proof.
  intros Li Lj E. unfold compare_pair, bind.
  rewrite (features_at_ok s i Li), (features_at_ok s j Lj), E.
  unfold lift, gets, visit. cbn [fst snd].
  destruct (xlt (Fin (d (i, j))) (min_similarity s)).
  - reflexivity.
  - unfold ret. rewrite with_vars_same. reflexivity.
Qed.

Lemma for_each_scan (sim : vec -> vec -> result xreal) (d : nat * nat -> R)
  (ps : list (nat * nat)) :
  forall s : state,
  (forall i j, In (i, j) ps ->
     (i < length (hog_data s))%nat /\ (j < length (hog_data s))%nat /\
     sim (features (hog_data s) i) (features (hog_data s) j) = Ok (Fin (d (i, j)))) ->
  for_each ps (compare_pair sim) s
  = Ok (tt, with_vars s (scan d ps (min_similarity s, most_similar_pair s))).
Proof.
  induction ps as [|[i j] ps IH]; intros s H.
  - simpl. unfold ret. rewrite with_vars_same. reflexivity.
  - destruct (H i j (or_introl eq_refl)) as (Li & Lj & E).
    cbn [for_each]. unfold bind at 1.
    rewrite (compare_pair_step sim d s i j Li Lj E).
    rewrite IH.
    + cbn. unfold scan. rewrite <- surjective_pairing. reflexivity.
    + intros i' j' Hin. cbn [with_vars hog_data].
      apply H. right. exact Hin.
Qed.


Lemma same_dimension_lengths (items : list entry) (i j : nat) :
  same_dimension items = true ->
  (i < length items)%nat -> (j < length items)%nat ->
  length (features items i) = length (features items j).
Proof.
  intros SD Li Lj.
  assert (A : exists n, forall row, In row items -> length (hog_features row) = n).
  { destruct items as [|r rest]; [simpl in Li; lia|].
    exists (length (hog_features r)). intros row [<-|Hin]; [reflexivity|].
    simpl in SD. rewrite forallb_forall in SD.
    apply Nat.eqb_eq, SD, Hin. }
  destruct A as [n Hn].
  destruct (features_lookup items i Li) as [ri [Ei <-]].
  destruct (features_lookup items j Lj) as [rj [Ej <-]].
  rewrite (Hn ri), (Hn rj); eauto using nth_error_In.
Qed.

(** With at least two rows of one dimensionality, the search returns the
    outcome of the scan over all pairs. *)
Lemma search_scan (s : state) :
  (2 <= length (hog_data s))%nat ->
  same_dimension (hog_data s) = true ->
  let acc := scan (pair_distance (hog_data s))
                  (combinations2 (range (length (hog_data s)))) (Inf, None) in
  search s = Ok (Some (fst acc, snd acc, hog_data s), with_vars s acc).
Proof.
  intros L SD acc. unfold search, search_with, bind at 1. unfold gets at 1.
  destruct (length (hog_data s) <? 2) eqn:E; [apply Nat.ltb_lt in E; lia|].
  unfold bind at 1. unfold set_min_similarity at 1.
  unfold bind at 1. unfold set_most_similar_pair at 1. cbn [hog_data stdout].
  unfold bind at 1.
  rewrite (for_each_scan calculate_similarity (pair_distance (hog_data s))).
  - reflexivity.
  - intros i j Hin. cbn [hog_data].
    apply in_combinations2_range in Hin.
    repeat split; try lia.
    apply calculate_similarity_same_length.
    apply same_dimension_lengths; [exact SD | lia | lia].
Qed.



Lemma pair_distance_similarity (items : list entry) (i j : nat) :
  same_dimension items = true ->
  (i < length items)%nat -> (j < length items)%nat ->
  calculate_similarity (features items i) (features items j)
  = Ok (Fin (pair_distance items (i, j))).
Proof.
  intros SD Li Lj. apply calculate_similarity_same_length.
  apply same_dimension_lengths; assumption.
Qed.

(** ** The claims about the search *)





(** ** The worked example *)

Lemma distance_A_B : pair_distance example_items (0%nat, 1%nat) = 5.
Proof.
  unfold pair_distance, norm. cbn.
  replace ((0 - 3) * (0 - 3) + ((0 - 4) * (0 - 4) + 0)) with (5 * 5) by ring.
  apply sqrt_square. lra.
Qed.

Lemma distance_A_C : pair_distance example_items (0%nat, 2%nat) = sqrt 2.
Proof.
  unfold pair_distance, norm. cbn. f_equal. ring.
Qed.

Lemma distance_B_C : pair_distance example_items (1%nat, 2%nat) = sqrt 13.
Proof.
  unfold pair_distance, norm. cbn. f_equal. ring.
Qed.

Lemma sqrt2_lt_5 : sqrt 2 < 5.
Proof.
  rewrite <- (sqrt_square 5) by lra. apply sqrt_lt_1_alt. lra.
Qed.

Lemma sqrt2_bounds : 1.41421356 < sqrt 2 < 1.41421357.
Proof.
  split.
  - rewrite <- (sqrt_square 1.41421356) by lra. apply sqrt_lt_1_alt. lra.
  - rewrite <- (sqrt_square 1.41421357) by lra. apply sqrt_lt_1_alt. lra.
Qed.

Lemma example_scan :
  scan (pair_distance example_items)
       [(0, 1); (0, 2); (1, 2)]%nat (Inf, None)
  = (Fin (sqrt 2), Some (0, 2)%nat).
Proof.
  unfold scan. cbn [fold_left].
  assert (V1 : visit (pair_distance example_items) (Inf, None) (0, 1)%nat
               = (Fin 5, Some (0, 1)%nat)).
  { unfold visit. rewrite distance_A_B. reflexivity. }
  rewrite V1.
  assert (V2 : visit (pair_distance example_items) (Fin 5, Some (0, 1)%nat) (0, 2)%nat
               = (Fin (sqrt 2), Some (0, 2)%nat)).
  { unfold visit. rewrite distance_A_C. cbn [fst xlt].
    destruct (Rlt_dec (sqrt 2) 5) as [_|N]; [reflexivity|].
    exfalso. exact (N sqrt2_lt_5). }
  rewrite V2.
  unfold visit. rewrite distance_B_C. cbn [fst xlt].
  destruct (Rlt_dec (sqrt 13) (sqrt 2)) as [Lt|_]; [|reflexivity].
  exfalso. apply sqrt_lt_0_alt in Lt. lra.
Qed.

Lemma example_search :
  search (start example_items)
  = Ok (Some (Fin (sqrt 2), Some (0, 2)%nat, example_items),
        with_vars (start example_items) (Fin (sqrt 2), Some (0, 2)%nat)).
Proof.
  rewrite search_scan; [|simpl; lia|reflexivity]. cbv zeta.
  change (hog_data (start example_items)) with example_items.
  change (combinations2 (range (length example_items)))
    with [(0, 1); (0, 2); (1, 2)]%nat.
  rewrite example_scan. reflexivity.
Qed.

(** C9.  For A = [0,0], B = [3,4], C = [1,1] the pairwise distances are
    A-B = 5, A-C = sqrt 2 and B-C = sqrt 13, and the search returns the pair
    of A and C (indices 0 and 2) with distance sqrt 2, which lies between
    1.41421356 and 1.41421357. *)
Theorem example_three_items :
  calculate_similarity [0; 0] [3; 4] = Ok (Fin 5) /\
  calculate_similarity [0; 0] [1; 1] = Ok (Fin (sqrt 2)) /\
  calculate_similarity [3; 4] [1; 1] = Ok (Fin (sqrt 13)) /\
  search (start example_items)
  = Ok (Some (Fin (sqrt 2), Some (0, 2)%nat, example_items),
        with_vars (start example_items) (Fin (sqrt 2), Some (0, 2)%nat)) /\
  option_map path (nth_error example_items 0) = Some "A"%string /\
  option_map path (nth_error example_items 2) = Some "C"%string /\
  1.41421356 < sqrt 2 < 1.41421357.
Proof.
  split; [|split; [|split; [|split; [|split; [|split]]]]].
  - rewrite <- distance_A_B.
    apply (pair_distance_similarity example_items 0 1); [reflexivity|simpl; lia ..].
  - rewrite <- distance_A_C.
    apply (pair_distance_similarity example_items 0 2); [reflexivity|simpl; lia ..].
  - rewrite <- distance_B_C.
    apply (pair_distance_similarity example_items 1 2); [reflexivity|simpl; lia ..].
  - exact example_search.
  - reflexivity.
  - reflexivity.
  - exact sqrt2_bounds.
Qed.

(** ** What the loop changes *)

Lemma compare_pair_effect (sim : vec -> vec -> result xreal) (i j : nat)
  (s s' : state) :
  compare_pair sim (i, j) s = Ok (tt, s') ->
  stdout s' = stdout s /\ hog_data s' = hog_data s /\
  (most_similar_pair s' = most_similar_pair s \/
   most_similar_pair s' = Some (i, j)).
Proof.
  unfold compare_pair, bind, features_at.
  destruct (nth_error (hog_data s) i) as [ri|]; [|discriminate].
  destruct (nth_error (hog_data s) j) as [rj|]; [|discriminate].
  unfold lift. destruct (sim (hog_features ri) (hog_features rj)) as [x|e];
    [|discriminate].
  unfold gets. destruct (xlt x (min_similarity s)).
  - unfold set_min_similarity, set_most_similar_pair. cbn.
    intros H. injection H as <-. cbn. auto.
  - unfold ret. intros H. injection H as <-. auto.
Qed.

Lemma for_each_effect (sim : vec -> vec -> result xreal) (ps : list (nat * nat)) :
  forall s s' : state,
  for_each ps (compare_pair sim) s = Ok (tt, s') ->
  stdout s' = stdout s /\ hog_data s' = hog_data s /\
  (most_similar_pair s' = most_similar_pair s \/
   exists p, In p ps /\ most_similar_pair s' = Some p).
Proof.
  induction ps as [|[i j] ps IH]; intros s s' H.
  - cbn in H. injection H as <-. auto.
  - cbn [for_each] in H. unfold bind in H.
    destruct (compare_pair sim (i, j) s) as [[[] s1]|e] eqn:E1; [|discriminate].
    apply compare_pair_effect in E1. destruct E1 as (O1 & D1 & P1).
    apply IH in H. destruct H as (O2 & D2 & P2).
    split; [congruence|]. split; [congruence|].
    destruct P2 as [P2|(p & Hp & P2)].
    + destruct P1 as [P1|P1]; [left; congruence|].
      right. exists (i, j). split; [left; reflexivity | congruence].
    + right. exists p. split; [right; exact Hp | exact P2].
Qed.

(** The console is never read. *)
Lemma compare_pair_console (sim : vec -> vec -> result xreal) (ij : nat * nat)
  (out : list string) (s : state) :
  compare_pair sim ij (on_console out s)
  = map_state (on_console out) (compare_pair sim ij s).
Proof.
  destruct ij as [i j]. destruct s as [o h m p].
  unfold compare_pair, bind, features_at, on_console, lift, gets. simpl.
  destruct (nth_error h i) as [ri|]; simpl; [|reflexivity].
  destruct (nth_error h j) as [rj|]; simpl; [|reflexivity].
  destruct (sim (hog_features ri) (hog_features rj)) as [x|e]; simpl;
    [|reflexivity].
  destruct (xlt x m); reflexivity.
Qed.

Lemma for_each_console (sim : vec -> vec -> result xreal) (ps : list (nat * nat))
  (out : list string) :
  forall s : state,
  for_each ps (compare_pair sim) (on_console out s)
  = map_state (on_console out) (for_each ps (compare_pair sim) s).
Proof.
  induction ps as [|p ps IH]; intros s; [reflexivity|].
  cbn [for_each]. unfold bind. rewrite compare_pair_console.
  destruct (compare_pair sim p s) as [[[] s1]|e]; cbn [map_state].
  - apply IH.
  - reflexivity.
Qed.

Lemma search_with_unfold (sim : vec -> vec -> result xreal) (s : state) :
  search_with sim s
  = if length (hog_data s) <? 2 then
      Ok (None, on_console (stdout s ++ ["Not enough images to compare similarity."%string]) s)
    else
      match for_each (combinations2 (range (length (hog_data s))))
                     (compare_pair sim)
                     (mkState (stdout s) (hog_data s) Inf None) with
      | Ok (_, s') =>
          Ok (Some (min_similarity s', most_similar_pair s', hog_data s'), s')
      | Raise e => Raise e
      end.
Proof.
  unfold search_with, bind, gets, set_min_similarity, set_most_similar_pair, ret.
  destruct (length (hog_data s) <? 2); [reflexivity|]. cbn [stdout hog_data].
  destruct (for_each _ _ _) as [[u s']|e]; reflexivity.
Qed.

Lemma search_with_inputs (sim : vec -> vec -> result xreal) (s1 s2 : state) :
  hog_data s1 = hog_data s2 ->
  returned (search_with sim s1) = returned (search_with sim s2).
Proof.
  intros E. rewrite !search_with_unfold, E.
  destruct (length (hog_data s2) <? 2); [reflexivity|].
  change (mkState (stdout s1) (hog_data s2) Inf None)
    with (on_console (stdout s1) (mkState (stdout s2) (hog_data s2) Inf None)).
  rewrite for_each_console.
  destruct (for_each _ _ (mkState (stdout s2) (hog_data s2) Inf None))
    as [[[] s']|e]; reflexivity.
Qed.

(** ** Extensionality of the loops *)

Lemma for_each_ext {A : Type} (body1 body2 : A -> M unit) (l : list A) :
  (forall x s, In x l -> body1 x s = body2 x s) ->
  forall s, for_each l body1 s = for_each l body2 s.
Proof.
  induction l as [|x l IH]; intros H s; [reflexivity|].
  cbn [for_each]. unfold bind. rewrite (H x s) by (left; reflexivity).
  destruct (body2 x s) as [[u s']|e]; [|reflexivity].
  apply IH. intros y t Hy. apply H. right. exact Hy.
Qed.

Lemma compare_pair_ext (sim1 sim2 : vec -> vec -> result xreal) :
  (forall u v, sim1 u v = sim2 u v) ->
  forall ij s, compare_pair sim1 ij s = compare_pair sim2 ij s.
Proof.
  intros H [i j] s. unfold compare_pair, bind, features_at.
  destruct (nth_error (hog_data s) i) as [ri|]; [|reflexivity].
  destruct (nth_error (hog_data s) j) as [rj|]; [|reflexivity].
  rewrite H. reflexivity.
Qed.

Lemma search_with_ext (sim1 sim2 : vec -> vec -> result xreal) :
  (forall u v, sim1 u v = sim2 u v) ->
  forall s, search_with sim1 s = search_with sim2 s.
Proof.
  intros H s. rewrite !search_with_unfold.
  rewrite (for_each_ext (compare_pair sim1) (compare_pair sim2)).
  - reflexivity.
  - intros x t _. apply compare_pair_ext, H.
Qed.

(** ** Index bounds, purity, symmetry *)

(** C10.  A returned pair of indices [(i, j)] of a collection of [N] items
    satisfies [0 <= i < j < N]. *)
Theorem returned_pair_in_bounds (s s' : state) (m : xreal) (i j : nat)
  (items : list entry) :
  search s = Ok (Some (m, Some (i, j), items), s') ->
  items = hog_data s /\ (0 <= i /\ i < j /\ j < length items)%nat.
Proof.
  unfold search. rewrite search_with_unfold.
  destruct (length (hog_data s) <? 2); [discriminate|].
  destruct (for_each _ _ _) as [[[] s1]|e] eqn:E; [|discriminate].
  intros H. injection H as Hm Hp Hd Hs. subst s1.
  apply for_each_effect in E. cbn [stdout hog_data most_similar_pair] in E.
  destruct E as (_ & D & P). split; [congruence|].
  destruct P as [P|(p & Hin & P)]; [congruence|].
  rewrite Hp in P. injection P as <-.
  apply in_combinations2_range in Hin. rewrite <- Hd, D. lia.
Qed.

Lemma returned_pair_in_bounds_witness :
  example_items = hog_data (start example_items) /\
  (0 <= 0 /\ 0 < 2 /\ 2 < length example_items)%nat.
Proof.
  exact (returned_pair_in_bounds (start example_items) _ _ _ _ _ example_search).
Defined.

(** C8.  The search has no side effects: what it returns is a function of the
    items alone, the items and their feature vectors are the same after it,
    the returned collection is the given one, and the pair computation
    (at least two items) writes nothing. *)
Theorem search_is_pure :
  (forall s1 s2 : state,
     hog_data s1 = hog_data s2 -> returned (search s1) = returned (search s2)) /\
  (forall (s s' : state) (r : retval),
     search s = Ok (r, s') ->
     hog_data s' = hog_data s /\
     ((2 <= length (hog_data s))%nat -> stdout s' = stdout s) /\
     (forall m p items, r = Some (m, p, items) -> items = hog_data s)).
Proof.
  split; [intros s1 s2; apply search_with_inputs|].
  intros s s' r. unfold search. rewrite search_with_unfold.
  destruct (length (hog_data s) <? 2) eqn:L.
  - intros H. injection H as <- <-. split; [reflexivity|].
    split; [apply Nat.ltb_lt in L; lia | discriminate].
  - destruct (for_each _ _ _) as [[[] s1]|e] eqn:E; [|discriminate].
    intros H. injection H as <- <-.
    apply for_each_effect in E. cbn [stdout hog_data] in E.
    destruct E as (O & D & _).
    split; [exact D|]. split; [intros _; exact O|].
    intros m p items H. injection H as _ _ <-. exact D.
Qed.

Lemma search_is_pure_witness :
  returned (search (start example_items))
  = returned (search (mkState ["earlier output"%string] example_items
                              (Fin 0) (Some (7, 9)%nat))).
Proof.
  apply (proj1 search_is_pure). reflexivity.
Defined.

(** C6.  The distance is symmetric, [calculate_similarity A B =
    calculate_similarity B A] for vectors of equal dimensionality, and the
    search gives the same outcome when the two vectors of every compared
    pair are handed over in the other order. *)
Theorem calculate_similarity_symmetric :
  (forall A B : vec,
     length A = length B -> calculate_similarity A B = calculate_similarity B A) /\
  (forall s : state,
     search_with (fun a b => calculate_similarity b a) s = search s).
Proof.
  split.
  - intros A B _. apply calculate_similarity_sym.
  - intros s. apply search_with_ext. intros u v. apply calculate_similarity_sym.
Qed.

Lemma calculate_similarity_symmetric_witness :
  calculate_similarity [0; 0] [3; 4] = calculate_similarity [3; 4] [0; 0].
Proof.
  apply (proj1 calculate_similarity_symmetric). reflexivity.
Defined.

(** ** Too few items *)

(** C2.  With fewer than two items the search returns [None], no pair and no
    exception, after it has written its message; and a run of
    [find_most_similar_images] that returns a tuple has collected at least
    two items. *)
Theorem search_insufficient_items :
  (forall s : state,
     (length (hog_data s) < 2)%nat ->
     search s
     = Ok (None, on_console (stdout s ++ ["Not enough images to compare similarity."%string]) s)) /\
  (forall (fs : filesystem) (path_join : string -> string -> string)
          (to_gray : list img -> result img) (hog : img -> vec * img)
          (rescale_intensity : img -> img) (image_dir : string)
          (s s' : state) (m : xreal) (p : option (nat * nat))
          (items : list entry),
     find_most_similar_images fs path_join to_gray hog rescale_intensity image_dir s
     = Ok (Some (m, p, items), s') ->
     (2 <= length items)%nat).
Proof.
  split.
  - intros s L. unfold search. rewrite search_with_unfold.
    apply Nat.ltb_lt in L. rewrite L. reflexivity.
  - intros fs path_join to_gray hog rescale_intensity image_dir s s' m p items.
    unfold find_most_similar_images. cbv zeta.
    destruct (list_images fs path_join image_dir) as [|x xs]; [discriminate|].
    unfold bind at 1. unfold set_hog_data. unfold bind at 1.
    destruct (for_each _ _ _) as [[u s1]|e]; [|discriminate].
    unfold search. rewrite search_with_unfold.
    destruct (length (hog_data s1) <? 2) eqn:L; [discriminate|].
    destruct (for_each _ _ _) as [[[] s2]|e] eqn:E; [|discriminate].
    intros H. injection H as _ _ <- _.
    apply for_each_effect in E. cbn [hog_data] in E.
    destruct E as (_ & -> & _). apply Nat.ltb_ge in L. exact L.
Qed.

Lemma search_insufficient_items_witness :
  search (start [item "A" [1; 2; 3]])
  = Ok (None, mkState ["Not enough images to compare similarity."%string]
                      [item "A" [1; 2; 3]] Inf None).
Proof.
  apply (proj1 search_insufficient_items (start [item "A" [1; 2; 3]])).
  simpl. lia.
Defined.

(** ** Vectors of different lengths *)

Lemma calculate_similarity_incompatible (u v : vec) :
  incompatible u v -> calculate_similarity u v = Raise ValueError.
Proof.
  intros (H1 & H2 & H3). unfold calculate_similarity, euclidean, subtract.
  apply Nat.eqb_neq in H1, H2, H3. rewrite H1, H2, H3. reflexivity.
Qed.

Lemma calculate_similarity_error (u v : vec) (e : exn) :
  calculate_similarity u v = Raise e -> e = ValueError.
Proof.
  unfold calculate_similarity, euclidean, subtract.
  destruct (length u =? length v); [discriminate|].
  destruct (length v =? 1); [discriminate|].
  destruct (length u =? 1); [discriminate|].
  intros H. injection H as <-. reflexivity.
Qed.

Lemma compare_pair_in_range (s : state) (i j : nat) :
  (i < length (hog_data s))%nat -> (j < length (hog_data s))%nat ->
  (exists s', compare_pair calculate_similarity (i, j) s = Ok (tt, s') /\
              hog_data s' = hog_data s) \/
  compare_pair calculate_similarity (i, j) s = Raise ValueError.
Proof.
  intros Li Lj.
  destruct (compare_pair calculate_similarity (i, j) s) as [[[] s']|e] eqn:E.
  - left. exists s'. split; [reflexivity|].
    apply compare_pair_effect in E. tauto.
  - right. f_equal. revert E. unfold compare_pair, bind.
    rewrite (features_at_ok s i Li), (features_at_ok s j Lj). unfold lift.
    destruct (calculate_similarity _ _) as [x|e'] eqn:C.
    + unfold gets. destruct (xlt x (min_similarity s)); discriminate.
    + intros H. injection H as <-. exact (calculate_similarity_error _ _ _ C).
Qed.

Lemma compare_pair_incompatible (s : state) (i j : nat) :
  (i < length (hog_data s))%nat -> (j < length (hog_data s))%nat ->
  incompatible (features (hog_data s) i) (features (hog_data s) j) ->
  compare_pair calculate_similarity (i, j) s = Raise ValueError.
Proof.
  intros Li Lj Inc. unfold compare_pair, bind.
  rewrite (features_at_ok s i Li), (features_at_ok s j Lj).
  rewrite (calculate_similarity_incompatible _ _ Inc). reflexivity.
Qed.

(** A loop that meets a pair of incompatible lengths does not finish: it
    raises there, unless an earlier pair raised already. *)
Lemma for_each_raises (ps : list (nat * nat)) :
  forall (s : state) (i j : nat),
  (forall a b, In (a, b) ps ->
     (a < length (hog_data s))%nat /\ (b < length (hog_data s))%nat) ->
  In (i, j) ps ->
  incompatible (features (hog_data s) i) (features (hog_data s) j) ->
  for_each ps (compare_pair calculate_similarity) s = Raise ValueError.
Proof.
  induction ps as [|[a b] ps IH]; intros s i j B Hin Inc; [destruct Hin|].
  cbn [for_each]. unfold bind.
  destruct (B a b (or_introl eq_refl)) as [La Lb].
  destruct Hin as [Hin|Hin].
  - inversion Hin; subst.
    rewrite (compare_pair_incompatible s i j La Lb Inc). reflexivity.
  - destruct (compare_pair_in_range s a b La Lb) as [(s' & -> & D)| ->];
      [|reflexivity].
    apply (IH s' i j).
    + intros a' b' H'. rewrite D. apply B. right. exact H'.
    + exact Hin.
    + rewrite D. exact Inc.
Qed.

(** C4, as the code has it.  Two vectors whose lengths differ and are both
    other than one cannot be subtracted: [calculate_similarity] raises, and
    a search over a collection that holds such a pair raises too.  (A vector
    of length one is stretched to the length of the other.) *)
Theorem incompatible_lengths_raise :
  (forall u v : vec, incompatible u v -> calculate_similarity u v = Raise ValueError) /\
  (forall (s : state) (i j : nat),
     (i < j /\ j < length (hog_data s))%nat ->
     incompatible (features (hog_data s) i) (features (hog_data s) j) ->
     search s = Raise ValueError).
Proof.
  split; [exact calculate_similarity_incompatible|].
  intros s i j B Inc. unfold search. rewrite search_with_unfold.
  destruct (length (hog_data s) <? 2) eqn:L; [apply Nat.ltb_lt in L; lia|].
  rewrite (for_each_raises _ _ i j); [reflexivity| | |exact Inc].
  - intros a b H. apply in_combinations2_range in H. cbn [hog_data]. lia.
  - apply in_combinations2_range. exact B.
Qed.

Lemma incompatible_lengths_raise_witness :
  search (start [item "A" [1; 2]; item "B" [1; 2; 3]]) = Raise ValueError.
Proof.
  apply (proj2 incompatible_lengths_raise
               (start [item "A" [1; 2]; item "B" [1; 2; 3]]) 0%nat 1%nat).
  - simpl. lia.
  - unfold incompatible. simpl. lia.
Defined.

(** C4, as the claim has it, fails: the lengths of [1] and [1, 2, 3] differ,
    yet their distance is computed, and a search over the two returns. *)
Lemma different_lengths_counterexample :
  length [1] <> length [1; 2; 3] /\
  calculate_similarity [1] [1; 2; 3] = Ok (Fin (sqrt 5)) /\
  returned (search (start [item "A" [1]; item "B" [1; 2; 3]]))
  = Ok (Some (Fin (sqrt 5), Some (0, 1)%nat, [item "A" [1]; item "B" [1; 2; 3]])) /\
  ~ (forall u v : vec,
       length u <> length v -> exists e, calculate_similarity u v = Raise e).
Proof.
  assert (C : calculate_similarity [1] [1; 2; 3] = Ok (Fin (sqrt 5))).
  { unfold calculate_similarity, euclidean, subtract, norm. cbn.
    do 3 f_equal. ring. }
  split; [simpl; lia|]. split; [exact C|]. split.
  - unfold search. rewrite search_with_unfold.
    cbn [start hog_data length Nat.ltb Nat.leb range seq combinations2 map app
         for_each stdout].
    unfold bind, compare_pair, bind, features_at.
    cbn [hog_data nth_error item hog_features].
    rewrite C. reflexivity.
  - intros H. destruct (H [1] [1; 2; 3]) as [e He]; [simpl; lia|].
    rewrite C in He. discriminate.
Qed.

(** ** Determinism *)

Lemma collect_agrees (fs1 fs2 : filesystem) (to_gray : list img -> result img)
  (hog : img -> vec * img) (rescale_intensity : img -> img) (p : string)
  (s : state) :
  imread fs1 p = imread fs2 p ->
  collect fs1 to_gray hog rescale_intensity p s
  = collect fs2 to_gray hog rescale_intensity p s.
Proof.
  intros E. unfold collect, load_and_preprocess_image. rewrite E. reflexivity.
Qed.

(** C7.  Two runs that find the same files in the same order, with the same
    content, on the same console, end alike: the same pair, the same
    distance, the same rows, or the same exception. *)
Theorem find_most_similar_images_deterministic (fs1 fs2 : filesystem)
  (path_join : string -> string -> string) (to_gray : list img -> result img)
  (hog : img -> vec * img) (rescale_intensity : img -> img)
  (image_dir : string) (s : state) :
  list_images fs1 path_join image_dir = list_images fs2 path_join image_dir ->
  (forall p, In p (list_images fs1 path_join image_dir) ->
     imread fs1 p = imread fs2 p) ->
  find_most_similar_images fs1 path_join to_gray hog rescale_intensity image_dir s
  = find_most_similar_images fs2 path_join to_gray hog rescale_intensity image_dir s.
Proof.
  intros EL ER. unfold find_most_similar_images. cbv zeta. rewrite <- EL.
  destruct (list_images fs1 path_join image_dir) as [|p ps] eqn:EP;
    [reflexivity|].
  unfold bind, set_hog_data.
  rewrite (for_each_ext (collect fs1 to_gray hog rescale_intensity)
                        (collect fs2 to_gray hog rescale_intensity) (p :: ps)).
  - reflexivity.
  - intros x t Hx. apply collect_agrees, ER, Hx.
Qed.

Lemma find_most_similar_images_deterministic_witness :
  find_most_similar_images disk_one join_paths flat_gray unit_hog (fun g => g)
                           "cropped_images" (start [])
  = find_most_similar_images disk_two join_paths flat_gray unit_hog (fun g => g)
                             "cropped_images" (start []).
Proof.
  apply find_most_similar_images_deterministic.
  - reflexivity.
  - intros p Hp. simpl in Hp. destruct Hp as [<-|[<-|[]]]; reflexivity.
Defined.

(** * Further properties of [demo.py] *)

(** ** The loop over the paths (lines 75-81) *)

Section CollectLoop.

Variable fs : filesystem.
Variable path_join : string -> string -> string.
Variable to_gray : list img -> result img.
Variable hog : img -> vec * img.
Variable rescale_intensity : img -> img.

Let collect_here := collect fs to_gray hog rescale_intensity.
Let find_here := find_most_similar_images fs path_join to_gray hog rescale_intensity.





Lemma find_unfold (image_dir : string) (s : state) :
  find_here image_dir s
  = match list_images fs path_join image_dir with
    | [] =>
        Ok (None, on_console (stdout s ++ [("No images found in directory: " ++ image_dir)%string]) s)
    | p :: ps =>
        match for_each (p :: ps) collect_here
                       (mkState (stdout s) [] (min_similarity s) (most_similar_pair s)) with
        | Ok (_, s1) => search s1
        | Raise e => Raise e
        end
    end.
Proof.
  unfold find_here, find_most_similar_images. cbv zeta.
  destruct (list_images fs path_join image_dir) as [|p ps]; [reflexivity|].
  unfold bind, set_hog_data.
  fold collect_here.
  destruct (for_each (p :: ps) collect_here _) as [[u s1]|e]; reflexivity.
Qed.







End CollectLoop.






(** ** [visualize_results] and [main] after the search *)

Lemma search_pair_in_range (s s' : state) (m : xreal) (i j : nat)
  (rows : list entry) :
  search s = Ok (Some (m, Some (i, j), rows), s') ->
  rows = hog_data s /\ (i < j /\ j < length rows)%nat.
Proof.
  unfold search. rewrite search_with_unfold.
  destruct (length (hog_data s) <? 2); [discriminate|].
  destruct (for_each _ _ _) as [[[] s1]|e] eqn:E; [|discriminate].
  intros H. injection H as Hm Hp Hd Hs.
  apply for_each_effect in E. cbn [stdout hog_data most_similar_pair] in E.
  destruct E as (_ & D & P).
  assert (R : rows = hog_data s) by congruence. split; [exact R|].
  destruct P as [P|(p & Hin & P)]; [congruence|].
  rewrite Hp in P. injection P as <-.
  apply in_combinations2_range in Hin. rewrite R. exact Hin.
Qed.

Lemma find_pair_in_range (fs : filesystem)
  (path_join : string -> string -> string) (to_gray : list img -> result img)
  (hog : img -> vec * img) (rescale_intensity : img -> img)
  (image_dir : string) (s s' : state) (m : xreal) (i j : nat)
  (rows : list entry) :
  find_most_similar_images fs path_join to_gray hog rescale_intensity image_dir s
  = Ok (Some (m, Some (i, j), rows), s') ->
  (i < j /\ j < length rows)%nat.
Proof.
  rewrite find_unfold.
  destruct (list_images fs path_join image_dir) as [|p ps]; [discriminate|].
  destruct (for_each _ _ _) as [[u s1]|e]; [|discriminate].
  intros H. apply search_pair_in_range in H. tauto.
Qed.

Lemma visualize_in_range (format_float : xreal -> string) (m : xreal)
  (p : option (nat * nat)) (rows : list entry) (out : list string) :
  (forall i j, p = Some (i, j) -> (i < length rows /\ j < length rows)%nat) ->
  (exists calls line,
     visualize_results format_float m p (Some rows) out
     = Ok (calls, out ++ [line])) /\
  (forall i j, p = Some (i, j) ->
     exists row1 row2,
       nth_error rows i = Some row1 /\ nth_error rows j = Some row2 /\
       visualize_results format_float m p (Some rows) out
       = Ok (draw_pair row1 row2,
             out ++ [similarity_line format_float m (path row1) (path row2)])).
Proof.
  intros B.
  assert (Draw : forall i j, p = Some (i, j) ->
     exists row1 row2,
       nth_error rows i = Some row1 /\ nth_error rows j = Some row2 /\
       visualize_results format_float m p (Some rows) out
       = Ok (draw_pair row1 row2,
             out ++ [similarity_line format_float m (path row1) (path row2)])).
  { intros i j E. destruct (B i j E) as [Li Lj]. subst p.
    destruct (nth_error rows i) as [row1|] eqn:E1;
      [|apply nth_error_None in E1; lia].
    destruct (nth_error rows j) as [row2|] eqn:E2;
      [|apply nth_error_None in E2; lia].
    exists row1, row2. unfold visualize_results. rewrite E1, E2. auto. }
  split; [|exact Draw].
  destruct p as [[i j]|].
  - destruct (Draw i j eq_refl) as (row1 & row2 & _ & _ & V).
    do 2 eexists. exact V.
  - do 2 eexists. reflexivity.
Qed.

Lemma example_find :
  find_most_similar_images disk_one join_paths flat_gray unit_hog (fun g => g)
                           "cropped_images" (start [])
  = Ok (Some (Fin (norm [1 - 1; 2 - 2]), Some (0, 1)%nat,
              [mkEntry [] [1; 2] [] "cropped_images/a.png";
               mkEntry [] [1; 2] [] "cropped_images/b.png"]),
        mkState [] [mkEntry [] [1; 2] [] "cropped_images/a.png";
                    mkEntry [] [1; 2] [] "cropped_images/b.png"]
                (Fin (norm [1 - 1; 2 - 2])) (Some (0, 1)%nat)).
Proof. reflexivity. Qed.

(** What [find_most_similar_images] returns can always be drawn:
    [visualize_results] raises no [IndexError] on it, writes one line, and
    for a pair [(i, j)] draws rows [i] and [j] of the returned rows and
    names their paths. *)
Theorem visualize_results_after_find (format_float : xreal -> string)
  (fs : filesystem) (path_join : string -> string -> string)
  (to_gray : list img -> result img) (hog : img -> vec * img)
  (rescale_intensity : img -> img) (image_dir : string) (s s' : state)
  (m : xreal) (p : option (nat * nat)) (rows : list entry) (out : list string) :
  find_most_similar_images fs path_join to_gray hog rescale_intensity image_dir s
  = Ok (Some (m, p, rows), s') ->
  (exists calls line,
     visualize_results format_float m p (Some rows) out
     = Ok (calls, out ++ [line])) /\
  (forall i j, p = Some (i, j) ->
     exists row1 row2,
       nth_error rows i = Some row1 /\ nth_error rows j = Some row2 /\
       visualize_results format_float m p (Some rows) out
       = Ok (draw_pair row1 row2,
             out ++ [similarity_line format_float m (path row1) (path row2)])).
Proof.
  intros H. apply visualize_in_range. intros i j E. subst p.
  apply find_pair_in_range in H. lia.
Qed.

Lemma visualize_results_after_find_witness :
  exists calls line,
    visualize_results (fun _ => "0.0"%string) (Fin (norm [1 - 1; 2 - 2]))
      (Some (0, 1)%nat)
      (Some [mkEntry [] [1; 2] [] "cropped_images/a.png";
             mkEntry [] [1; 2] [] "cropped_images/b.png"]) []
    = Ok (calls, [] ++ [line]).
Proof.
  exact (proj1 (visualize_results_after_find (fun _ => "0.0"%string) _ _ _ _ _ _
                  _ _ _ _ _ [] example_find)).
Defined.

(** [main] adds no failure of its own: it raises exactly when
    [find_most_similar_images] raises; when that returns [None] it draws
    nothing and writes nothing more; when that returns a tuple it writes one
    more line. *)
Theorem main_outcome (format_float : xreal -> string) (fs : filesystem)
  (path_join : string -> string -> string) (to_gray : list img -> result img)
  (hog : img -> vec * img) (rescale_intensity : img -> img)
  (image_dir : string) (out : list string) :
  let found_pair :=
    find_most_similar_images fs path_join to_gray hog rescale_intensity
                             image_dir (mkState out [] Inf None) in
  let shown :=
    main format_float fs path_join to_gray hog rescale_intensity image_dir out in
  (forall e, shown = Raise e <-> found_pair = Raise e) /\
  (forall s, found_pair = Ok (None, s) -> shown = Ok ([], stdout s)) /\
  (forall m p rows s, found_pair = Ok (Some (m, p, rows), s) ->
     exists calls line, shown = Ok (calls, stdout s ++ [line])).
Proof.
  intros found_pair shown. unfold shown, main. fold found_pair.
  destruct found_pair as [[[[[m p] rows]|] s]|e] eqn:F.
  - assert (V : exists calls line,
               visualize_results format_float m p (Some rows) (stdout s)
               = Ok (calls, stdout s ++ [line])).
    { apply visualize_in_range. intros i j E. subst p.
      apply find_pair_in_range in F. lia. }
    destruct V as (calls & line & V). rewrite V.
    split; [intros e; split; discriminate|].
    split; [discriminate|].
    intros m' p' rows' s0 H. injection H as <- <- <- <-.
    exists calls, line. reflexivity.
  - split; [intros e; split; discriminate|].
    split; [intros s0 H; injection H as <-; reflexivity|discriminate].
  - split; [intros e'; split; intros H; injection H as <-; reflexivity|].
    split; discriminate.
Qed.

Lemma main_outcome_witness :
  main (fun _ => "0.0"%string) disk_half join_paths flat_gray unit_hog
       (fun g => g) "cropped_images" []
  = Ok ([], ["Error: Image file not found at cropped_images/b.png"%string;
             "Not enough images to compare similarity."%string]).
Proof.
  apply (proj1 (proj2 (main_outcome (fun _ => "0.0"%string) disk_half join_paths
                         flat_gray unit_hog (fun g => g) "cropped_images" []))
           (mkState ["Error: Image file not found at cropped_images/b.png"%string;
                     "Not enough images to compare similarity."%string]
                    [mkEntry [] [1; 2] [] "cropped_images/a.png"] Inf None)).
  reflexivity.
Defined.

(** ** The distance as a metric *)

Lemma dot_self_nonneg (x : vec) : 0 <= dot x x.
Proof.
  induction x as [|a x IH]; simpl; [lra|]. nra.
Qed.

Lemma difference_zero (u : vec) :
  forall v : vec, length u = length v ->
  dot (zip_with Rminus u v) (zip_with Rminus u v) = 0 -> u = v.
Proof.
  induction u as [|a u IH]; intros [|b v] L Z; simpl in L; try discriminate;
    [reflexivity|].
  cbn [zip_with dot] in Z.
  pose proof (dot_self_nonneg (zip_with Rminus u v)) as P.
  assert (Hab : a = b) by nra.
  assert (Hr : dot (zip_with Rminus u v) (zip_with Rminus u v) = 0) by nra.
  f_equal; [exact Hab|]. apply IH; [lia|exact Hr].
Qed.

Lemma difference_self (u : vec) :
  dot (zip_with Rminus u u) (zip_with Rminus u u) = 0.
Proof.
  induction u as [|a u IH]; simpl; [reflexivity|]. rewrite IH. ring.
Qed.

Lemma calculate_similarity_nonneg (u v : vec) (d : R) :
  calculate_similarity u v = Ok (Fin d) -> 0 <= d.
Proof.
  unfold calculate_similarity, euclidean.
  destruct (subtract u v) as [w|e]; [|discriminate].
  intros H. injection H as <-. apply sqrt_pos.
Qed.

Lemma similarity_zero_iff (u v : vec) :
  length u = length v ->
  (calculate_similarity u v = Ok (Fin 0) <-> u = v).
Proof.
  intros L. rewrite calculate_similarity_same_length by exact L. split.
  - intros H. injection H as H. unfold norm in H.
    apply sqrt_eq_0 in H; [|apply dot_self_nonneg].
    apply difference_zero; assumption.
  - intros ->. unfold norm. rewrite difference_self, sqrt_0. reflexivity.
Qed.

(** A distance is never negative, and between vectors of one length it is
    zero exactly when the two vectors are equal. *)
Theorem calculate_similarity_separates :
  (forall (u v : vec) (d : R), calculate_similarity u v = Ok (Fin d) -> 0 <= d) /\
  (forall u v : vec,
     length u = length v ->
     (calculate_similarity u v = Ok (Fin 0) <-> u = v)).
Proof.
  split; [exact calculate_similarity_nonneg | exact similarity_zero_iff].
Qed.

Lemma calculate_similarity_separates_witness :
  calculate_similarity [3; 4] [3; 4] = Ok (Fin 0) <-> [3; 4] = [3; 4].
Proof.
  apply (proj2 calculate_similarity_separates). reflexivity.
Defined.








(** ** When the search raises *)







(** ** Duplicates and the order of the rows *)












(** ** The order of the directory listing *)





(** * Properties of the other scripts *)

(** ** Names and links *)

Lemma ends_with_cons (suffix : string) (c : ascii) (s : string) :
  ends_with suffix (String c s)
  = if String.eqb suffix (String c s) then true else ends_with suffix s.
Proof. reflexivity. Qed.

Lemma ends_with_spec (suffix s : string) :
  ends_with suffix s = true <-> exists stem, s = (stem ++ suffix)%string.
Proof.
  induction s as [|c s IH].
  - cbn [ends_with]. split.
    + destruct (String.eqb suffix "") eqn:E; [|discriminate].
      apply String.eqb_eq in E. subst. intros _. exists ""%string. reflexivity.
    + intros [stem E]. destruct stem; [|discriminate].
      cbn in E. subst. reflexivity.
  - rewrite ends_with_cons. split.
    + destruct (String.eqb suffix (String c s)) eqn:E.
      * apply String.eqb_eq in E. subst. intros _. exists ""%string. reflexivity.
      * intros H. apply IH in H. destruct H as [stem ->].
        exists (String c stem). reflexivity.
    + intros [stem E]. destruct stem as [|a stem].
      * cbn in E. subst. rewrite String.eqb_refl. reflexivity.
      * cbn in E. injection E as <- E.
        destruct (String.eqb suffix (String c s)); [reflexivity|].
        apply IH. exists stem. exact E.
Qed.

(** A file is cropped exactly when its name ends, letter for letter, with one
    of the five extensions. *)
Theorem is_image_name_spec (filename : string) :
  is_image_name filename = true <->
  exists stem ext,
    In ext image_extensions /\ filename = (stem ++ ext)%string.
Proof.
  unfold is_image_name. rewrite existsb_exists. split.
  - intros (ext & Hin & H). apply ends_with_spec in H. destruct H as [stem ->].
    exists stem, ext. split; [exact Hin|reflexivity].
  - intros (stem & ext & Hin & ->). exists ext. split; [exact Hin|].
    apply ends_with_spec. exists stem. reflexivity.
Qed.

Lemma split_on_plain (sep : ascii) (s : string) :
  has_char sep s = false -> split_on sep s = [s].
Proof.
  induction s as [|c s IH]; intros H; [reflexivity|].
  cbn [has_char] in H. apply orb_false_iff in H. destruct H as [Hc Hs].
  cbn [split_on]. rewrite Hc, (IH Hs). reflexivity.
Qed.

Lemma split_on_last (sep : ascii) (segment : string) (prefix : string) :
  has_char sep segment = false ->
  exists piece pieces,
    split_on sep (prefix ++ String sep segment) = (piece :: pieces) ++ [segment].
Proof.
  intros H. induction prefix as [|c prefix IH].
  - exists ""%string, []. cbn [append split_on]. rewrite Ascii.eqb_refl.
    rewrite (split_on_plain _ _ H). reflexivity.
  - destruct IH as (piece & pieces & E). cbn [append split_on]. rewrite E.
    destruct (Ascii.eqb c sep).
    + exists ""%string, (piece :: pieces). reflexivity.
    + exists (String c piece), pieces. reflexivity.
Qed.

Lemma split_on_pieces (sep : ascii) (s : string) :
  split_on sep s <> [] /\
  Forall (fun piece => has_char sep piece = false) (split_on sep s).
Proof.
  induction s as [|c s [N F]]; [split; [discriminate|repeat constructor]|].
  cbn [split_on]. destruct (Ascii.eqb c sep) eqn:E.
  - split; [discriminate|]. constructor; [reflexivity|exact F].
  - destruct (split_on sep s) as [|piece pieces]; [congruence|].
    split; [discriminate|].
    inversion F as [|? ? Hp Hps]; subst. constructor; [|exact Hps].
    cbn [has_char]. rewrite E, Hp. reflexivity.
Qed.

Lemma variant_id_after_slash (prefix segment : string) :
  has_char "/" segment = false ->
  variant_id (prefix ++ String "/" segment) = segment.
Proof.
  intros H. unfold variant_id.
  destruct (split_on_last "/" segment prefix H) as (piece & pieces & ->).
  apply last_last.
Qed.

(** The screenshot is named after what follows the last slash of the link:
    the whole link when it has no slash, the part after the last slash
    otherwise, never with a slash in it. *)
Theorem variant_id_spec :
  (forall link, has_char "/" link = false -> variant_id link = link) /\
  (forall prefix segment,
     has_char "/" segment = false ->
     variant_id (prefix ++ String "/" segment) = segment) /\
  (forall link, has_char "/" (variant_id link) = false).
Proof.
  split; [|split].
  - intros link H. unfold variant_id. rewrite (split_on_plain _ _ H). reflexivity.
  - exact variant_id_after_slash.
  - intros link. unfold variant_id.
    destruct (split_on_pieces "/" link) as [N F].
    destruct (exists_last N) as (front & x & E). rewrite E in *.
    rewrite last_last. apply Forall_app in F. destruct F as [_ F].
    inversion F; assumption.
Qed.

Lemma variant_id_spec_witness :
  variant_id "https://example.org/variant/rs123" = "rs123"%string.
Proof.
  apply (proj1 (proj2 variant_id_spec) "https://example.org/variant"%string
               "rs123"%string).
  reflexivity.
Defined.

(** A link that ends with a slash has an empty variant id: its screenshot is
    saved as [.png], whatever the link. *)
Theorem screenshot_name_trailing_slash (link : string) :
  screenshot_name (link ++ "/") = ".png"%string.
Proof.
  unfold screenshot_name.
  rewrite (variant_id_after_slash link ""%string eq_refl). reflexivity.
Qed.

(** ** The loop of [crop_images_in_folder] *)

Section CropLoop.

Variable world : Type.
Variable picture : Type.
Variable path_exists : world -> string -> bool.
Variable makedirs : string -> world -> outcome world.
Variable list_folder : world -> string -> outcome (list string).
Variable join : string -> string -> string.
Variable image_open : world -> string -> outcome picture.
Variable crop : picture -> Z * Z * Z * Z -> outcome picture.
Variable save : picture -> string -> world -> outcome unit * world.

Variable input_folder output_folder : string.
Variable crop_box : Z * Z * Z * Z.

Let body := crop_one world picture join image_open crop save
                     input_folder output_folder crop_box.

Lemma crop_one_skip (st : world * list string) (filename : string) :
  is_image_name filename = false -> body st filename = st.
Proof.
  intros H. unfold body, crop_one. destruct st as [w out]. rewrite H.
  reflexivity.
Qed.

Lemma crop_one_line (st : world * list string) (filename : string) :
  is_image_name filename = true ->
  exists w' line,
    line_about filename line /\ body st filename = (w', snd st ++ [line]).
Proof.
  intros H. unfold body, crop_one. destruct st as [w out]. rewrite H.
  cbn [negb snd].
  destruct (image_open w (join input_folder filename)) as [p|e].
  - destruct (crop p crop_box) as [c|e].
    + destruct (save c (join output_folder filename) w) as [[[]|e] w'].
      * exists w', (cropped_line filename). split; [left|]; reflexivity.
      * exists w', (crop_error_line filename e).
        split; [right; exists e|]; reflexivity.
    + exists w, (crop_error_line filename e).
      split; [right; exists e|]; reflexivity.
  - exists w, (crop_error_line filename e).
    split; [right; exists e|]; reflexivity.
Qed.

Lemma crop_loop_lines (names : list string) :
  forall st : world * list string,
  exists w' lines,
    fold_left body names st = (w', snd st ++ lines) /\
    Forall2 line_about (filter is_image_name names) lines.
Proof.
  induction names as [|f names IH]; intros st.
  - exists (fst st), []. cbn. rewrite app_nil_r. split; [|constructor].
    destruct st; reflexivity.
  - cbn [fold_left filter]. destruct (is_image_name f) eqn:E.
    + destruct (crop_one_line st f E) as (w1 & line & A & ->).
      destruct (IH (w1, snd st ++ [line])) as (w' & lines & -> & F).
      exists w', (line :: lines). cbn [snd]. rewrite <- app_assoc.
      split; [reflexivity|]. constructor; assumption.
    + rewrite (crop_one_skip st f E). apply IH.
Qed.

Lemma crop_loop_filter (names : list string) :
  forall st : world * list string,
  fold_left body names st = fold_left body (filter is_image_name names) st.
Proof.
  induction names as [|f names IH]; intros st; [reflexivity|].
  cbn [fold_left filter]. destruct (is_image_name f) eqn:E.
  - cbn [fold_left]. apply IH.
  - rewrite (crop_one_skip st f E). apply IH.
Qed.

(** A picture that cannot be opened, cropped or saved does not stop the
    batch.  The function fails only when the output folder cannot be made or
    the input folder cannot be listed; otherwise it writes exactly one line
    for every listed name with an image extension, in the order of the
    listing, either that the file was cropped and saved or the error met. *)
Theorem crop_images_in_folder_outcome (w : world) (out : list string) :
  match crop_images_in_folder world picture path_exists makedirs list_folder
          join image_open crop save input_folder output_folder crop_box (w, out)
  with
  | Done (w', out') =>
      exists w1 names lines,
        list_folder w1 input_folder = Done names /\
        out' = out ++ lines /\
        Forall2 line_about (filter is_image_name names) lines
  | Failed e =>
      (path_exists w output_folder = false /\ makedirs output_folder w = Failed e) \/
      (exists w1, list_folder w1 input_folder = Failed e)
  end.
Proof.
  unfold crop_images_in_folder.
  destruct (path_exists w output_folder) eqn:P.
  - destruct (list_folder w input_folder) as [names|e] eqn:L.
    + destruct (crop_loop_lines names (w, out)) as (w' & lines & E & F).
      fold body. rewrite E. exists w, names, lines. auto.
    + right. exists w. exact L.
  - destruct (makedirs output_folder w) as [w1|e] eqn:Mk.
    + destruct (list_folder w1 input_folder) as [names|e] eqn:L.
      * destruct (crop_loop_lines names (w1, out)) as (w' & lines & E & F).
        fold body. rewrite E. exists w1, names, lines. auto.
      * right. exists w1. exact L.
    + left. auto.
Qed.

(** Names without an image extension take no part: the loop over a listing
    does what the loop over its image names does. *)
Theorem crop_loop_skips_other_names (names : list string)
  (st : world * list string) :
  fold_left (crop_one world picture join image_open crop save
                      input_folder output_folder crop_box) names st
  = fold_left (crop_one world picture join image_open crop save
                        input_folder output_folder crop_box)
              (filter is_image_name names) st.
Proof.
  apply crop_loop_filter.
Qed.

End CropLoop.

(** ** The links of a folder of [.webloc] files *)

Section WeblocLinks.

Variable load_plist : string -> plist_load.
Variable folder_names : string -> list string.
Variable join : string -> string -> string.

Let extract := extract_link_from_webloc load_plist.
Let step := add_link load_plist join.

Lemma handle_webloc_error_fails (webloc_file : string) (cls : exception_class)
  (msg : string) (out : list string) :
  handle_webloc_error webloc_file cls msg out = Failed plistlib_attribute_error.
Proof. reflexivity. Qed.

Lemma extract_cases (webloc_file : string) (out : list string) :
  (exists entries url,
     load_plist webloc_file = Plist entries /\
     lookup "URL" entries = Some url /\
     extract webloc_file out = Done (Some url, out)) \/
  extract webloc_file out = Failed plistlib_attribute_error.
Proof.
  unfold extract, extract_link_from_webloc.
  destruct (load_plist webloc_file) as [entries|cls msg] eqn:L.
  - destruct (lookup "URL" entries) as [url|] eqn:U.
    + left. exists entries, url. auto.
    + right. apply handle_webloc_error_fails.
  - right. apply handle_webloc_error_fails.
Qed.

(** The handler of lines 30-32 never completes: [extract_link_from_webloc]
    returns the URL of a file that loads and has the key, and in every other
    case raises the [AttributeError] of the missing
    [plistlib.InvalidPlistException]; it never returns [None] and never
    writes its message. *)
Theorem extract_link_from_webloc_outcome (webloc_file : string)
  (out : list string) :
  (exists entries url,
     load_plist webloc_file = Plist entries /\
     lookup "URL" entries = Some url /\
     extract_link_from_webloc load_plist webloc_file out = Done (Some url, out)) \/
  extract_link_from_webloc load_plist webloc_file out
  = Failed plistlib_attribute_error.
Proof.
  exact (extract_cases webloc_file out).
Qed.

Lemma step_failed (folder_path e : string) (names : list string) :
  fold_left (step folder_path) names (Failed e) = Failed e.
Proof.
  induction names as [|f names IH]; [reflexivity|]. exact IH.
Qed.

Lemma step_other (folder_path filename : string) (links out : list string) :
  ends_with ".webloc" filename = false ->
  step folder_path (Done (links, out)) filename
  = Done (links ++ link_of load_plist join folder_path filename, out).
Proof.
  intros E. unfold step, add_link, link_of. rewrite E, app_nil_r. reflexivity.
Qed.

Lemma step_loaded (folder_path filename : string) (links out : list string) :
  ends_with ".webloc" filename = true ->
  loads load_plist join folder_path filename ->
  step folder_path (Done (links, out)) filename
  = Done (links ++ link_of load_plist join folder_path filename, out).
Proof.
  intros E (entries & url & L & U).
  unfold step, add_link, link_of, extract_link_from_webloc. rewrite E, L, U.
  destruct url as [|c url]; cbn [truthy]; [rewrite app_nil_r|]; reflexivity.
Qed.

Lemma step_not_loaded (folder_path filename : string) (links out : list string) :
  ends_with ".webloc" filename = true ->
  ~ loads load_plist join folder_path filename ->
  step folder_path (Done (links, out)) filename = Failed plistlib_attribute_error.
Proof.
  intros E N. unfold step, add_link. rewrite E. cbv zeta.
  destruct (extract_cases (join folder_path filename) out)
    as [(entries & url & L & U & _)| F].
  - exfalso. apply N. exists entries, url. auto.
  - unfold extract in F. rewrite F. reflexivity.
Qed.

Lemma links_loop (folder_path : string) (names : list string) :
  forall links out : list string,
  (forall f, In f names -> ends_with ".webloc" f = true ->
     loads load_plist join folder_path f) ->
  fold_left (step folder_path) names (Done (links, out))
  = Done (links ++ flat_map (link_of load_plist join folder_path) names, out).
Proof.
  induction names as [|f names IH]; intros links out H.
  - cbn. rewrite app_nil_r. reflexivity.
  - cbn [fold_left flat_map].
    assert (S : step folder_path (Done (links, out)) f
                = Done (links ++ link_of load_plist join folder_path f, out)).
    { destruct (ends_with ".webloc" f) eqn:E.
      - apply step_loaded; [exact E|]. apply H; [left; reflexivity|exact E].
      - apply step_other, E. }
    rewrite S, IH by (intros g Hg; apply H; right; exact Hg).
    rewrite <- app_assoc. reflexivity.
Qed.

Lemma links_loop_cases (folder_path : string) (names : list string) :
  forall links out : list string,
  (exists links' out',
     fold_left (step folder_path) names (Done (links, out)) = Done (links', out')) \/
  fold_left (step folder_path) names (Done (links, out))
  = Failed plistlib_attribute_error.
Proof.
  induction names as [|f names IH]; intros links out.
  - left. exists links, out. reflexivity.
  - cbn [fold_left]. destruct (ends_with ".webloc" f) eqn:E.
    + destruct (extract_cases (join folder_path f) out)
        as [(entries & url & L & U & _)| F].
      * rewrite (step_loaded folder_path f links out E)
          by (exists entries, url; auto).
        apply IH.
      * right. unfold step at 2, add_link. rewrite E. cbv zeta.
        unfold extract in F. rewrite F. apply step_failed.
    + rewrite (step_other folder_path f links out E). apply IH.
Qed.

Lemma link_of_nonempty (folder_path filename link : string) :
  In link (link_of load_plist join folder_path filename) -> link <> ""%string.
Proof.
  unfold link_of. destruct (ends_with ".webloc" filename); [|intros []].
  destruct (load_plist (join folder_path filename)) as [entries|cls msg];
    [|intros []].
  destruct (lookup "URL" entries) as [[|c url]|];
    [intros [] | intros [<-|[]]; discriminate | intros []].
Qed.

(** When every [.webloc] file of the folder loads and has the key [URL], the
    links are the non-empty URLs of these files in the order of the listing,
    and nothing is written; no returned link is empty.  When one of these
    files does not load or lacks the key, the whole extraction raises. *)
Theorem extract_links_from_webloc_folder_outcome (folder_path : string)
  (out : list string) :
  let names := folder_names folder_path in
  let links := flat_map (link_of load_plist join folder_path) names in
  ((forall f, In f names -> ends_with ".webloc" f = true ->
      loads load_plist join folder_path f) ->
   extract_links_from_webloc_folder load_plist folder_names join folder_path out
   = Done (links, out) /\
   Forall (fun link => link <> ""%string) links) /\
  (forall f, In f names -> ends_with ".webloc" f = true ->
     ~ loads load_plist join folder_path f ->
     extract_links_from_webloc_folder load_plist folder_names join folder_path out
     = Failed plistlib_attribute_error).
Proof.
  intros names links. unfold extract_links_from_webloc_folder. fold names. split.
  - intros H. split.
    + fold step. rewrite (links_loop folder_path names [] out H). reflexivity.
    + apply Forall_forall. intros link Hl. unfold links in Hl.
      apply in_flat_map in Hl. destruct Hl as (f & _ & Hf).
      exact (link_of_nonempty _ _ _ Hf).
  - intros f Hin E N. fold step.
    destruct (in_split _ _ Hin) as (pre & post & ->).
    rewrite fold_left_app. cbn [fold_left].
    destruct (links_loop_cases folder_path pre [] out)
      as [(links0 & out0 & ->)| ->].
    + rewrite (step_not_loaded folder_path f links0 out0 E N).
      apply step_failed.
    + exact (step_failed folder_path _ (f :: post)).
Qed.

End WeblocLinks.

Lemma is_image_name_spec_witness : is_image_name "plot.png" = true.
Proof.
  apply (proj2 (is_image_name_spec "plot.png")).
  exists "plot"%string, ".png"%string. split; [left|]; reflexivity.
Defined.

Lemma extract_links_from_webloc_folder_outcome_witness :
  extract_links_from_webloc_folder example_plists example_folder join_paths
                                   "link/autism" []
  = Done (["https://example.org/variant/rs1"%string], []).
Proof.
  apply (proj1 (extract_links_from_webloc_folder_outcome example_plists
                  example_folder join_paths "link/autism" [])).
  intros f [<-|[<-|[]]] E.
  - exists [("URL", "https://example.org/variant/rs1")]%string,
           "https://example.org/variant/rs1"%string.
    split; reflexivity.
  - discriminate E.
Defined.
